(** * A static file server with CORS headers: [serve.py]

    The script changes into [dist], derives a request handler from the
    standard library's [SimpleHTTPRequestHandler] that overrides
    [end_headers] and [log_message], and serves on port 8080 inside a
    [try] statement with two [except] clauses.

    The development has four layers, each in its own module:
    - [Py]: the fragment of Python the script is written in: exceptions,
      a state-and-exception monad that keeps the effects made before a
      raise, [try]/[except] dispatch, the [%] string operator, [print];
    - [Fs]: a read-only file system tree;
    - [HttpServer]: the request handler classes of CPython's [http.server]
      (version 3.11), with the two overridable methods dispatched through
      a record, as the class hierarchy does;
    - [Serve]: the script itself, [socketserver.TCPServer] and the
      interpreter's top level, which turns the script's outcome into an
      exit status. *)

From Stdlib Require Import String Ascii List ZArith Bool Lia DecimalString.
Import ListNotations.
Local Open Scope string_scope.
Local Open Scope Z_scope.

(* ===================================================================== *)
(** ** The Python fragment *)
(* ===================================================================== *)

Module Py.

(** Exceptions that can travel through the script.  [Exception cls msg]
    stands for an instance of a subclass of Python's [Exception]: [cls] is
    the class name and [msg] what [str(e)] gives.  [KeyboardInterrupt] and
    [SystemExit] derive from [BaseException] only. *)
Inductive exn : Type :=
| KeyboardInterrupt
| SystemExit (code : Z)
| Exception (cls msg : string).

(** [isinstance(e, KeyboardInterrupt)] *)
Definition is_KeyboardInterrupt (e : exn) : bool :=
  match e with KeyboardInterrupt => true | _ => false end.

(** [isinstance(e, Exception)] *)
Definition is_Exception (e : exn) : bool :=
  match e with Exception _ _ => true | _ => false end.

(** [str(e)], as the f-string [{e}] renders it. *)
Definition str_exn (e : exn) : string :=
  match e with
  | KeyboardInterrupt => ""
  | SystemExit n => NilZero.string_of_int (Z.to_int n)
  | Exception _ msg => msg
  end.

(** The outcome of a statement: it completes with a value or raises. *)
Inductive res (A : Type) : Type :=
| Ret (a : A)
| Raise (e : exn).
Arguments Ret {A} a.
Arguments Raise {A} e.

(** A computation over a state [S].  The state reached is returned also
    when the computation raises: what was printed or sent before the
    exception stays printed or sent. *)
Definition M (S A : Type) : Type := S -> S * res A.

Definition ret {S A} (a : A) : M S A := fun s => (s, Ret a).

Definition bind {S A B} (c : M S A) (k : A -> M S B) : M S B :=
  fun s =>
    match c s with
    | (s', Ret a) => k a s'
    | (s', Raise e) => (s', Raise e)
    end.

Definition raise {S A} (e : exn) : M S A := fun s => (s, Raise e).

Definition gets {S A} (f : S -> A) : M S A := fun s => (s, Ret (f s)).

Definition modify {S} (f : S -> S) : M S unit := fun s => (f s, Ret tt).

Declare Scope py_scope.
Delimit Scope py_scope with py.
Notation "x <- c ;; k" := (bind c (fun x => k))
  (at level 100, c at next level, right associativity) : py_scope.
Notation "c ;; k" := (bind c (fun _ => k))
  (at level 100, right associativity) : py_scope.

(** [sys.exit(n)] raises [SystemExit(n)]. *)
Definition sys_exit {S} (n : Z) : M S unit := raise (SystemExit n).

(** One [except] clause: the class test and the clause's body. *)
Definition clause (S : Type) : Type := (exn -> bool) * (exn -> M S unit).

(** The clauses are tried in order; the first whose class matches runs.
    With no match the exception goes on. *)
Fixpoint dispatch {S} (clauses : list (clause S)) (e : exn) : M S unit :=
  match clauses with
  | [] => raise e
  | (matches, handler) :: rest =>
      if matches e then handler e else dispatch rest e
  end.

(** [try: body except ...]: only an exception of [body] is dispatched; one
    raised by a clause's own body leaves the statement. *)
Definition try_except {S} (body : M S unit) (clauses : list (clause S))
  : M S unit :=
  fun s =>
    match body s with
    | (s', Ret tt) => (s', Ret tt)
    | (s', Raise e) => dispatch clauses e s'
    end.

(** Values passed to the [%] operator. *)
Inductive pyval : Type :=
| PStr (s : string)
| PInt (n : Z).

(** [str(n)] for an integer. *)
Definition str_int (n : Z) : string := NilZero.string_of_int (Z.to_int n).

(** [str(v)] *)
Definition str_val (v : pyval) : string :=
  match v with
  | PStr s => s
  | PInt n => str_int n
  end.

(** [format % args] for format strings whose conversions are [%s], [%d]
    and [%%], without flags or widths: these are the conversions of the
    formats the handler logs with.  [None] stands for the [TypeError] or
    [ValueError] Python raises on such a format: too few or too many
    arguments, [%d] given a string, a lone [%] at the end.  The other
    conversions of Python ([%r], [%x], widths and so on) are not modelled:
    for a format that uses one the result here is [None] too. *)
Fixpoint percent (format : string) (args : list pyval) : option string :=
  match format with
  | EmptyString =>
      match args with
      | [] => Some EmptyString
      | _ :: _ => None
      end
  | String "%" EmptyString => None
  | String "%" (String c rest) =>
      if Ascii.eqb c "%" then option_map (String "%") (percent rest args)
      else if Ascii.eqb c "s" then
        match args with
        | v :: args' => option_map (append (str_val v)) (percent rest args')
        | [] => None
        end
      else if Ascii.eqb c "d" then
        match args with
        | PInt n :: args' => option_map (append (str_int n)) (percent rest args')
        | _ => None
        end
      else None
  | String c rest => option_map (String c) (percent rest args)
  end.

(** The two output streams of the process. *)
Inductive stream : Type := Stdout | Stderr.

(** The console: every [print] call, oldest first, with its stream and
    its text (without the newline [print] adds). *)
Definition console : Type := list (stream * string).

(** States that carry the process's console. *)
Class HasConsole (S : Type) : Type :=
  { emit : stream -> string -> S -> S }.

(** [print(text)].  The streams take every character printed: their
    encoding is UTF-8, and writing to them and flushing them does not
    fail.  A stream that lacks a character ([UnicodeEncodeError]) or that
    is closed is not modelled. *)
Definition print {S} `{HasConsole S} (text : string) : M S unit :=
  modify (emit Stdout text).

(** [print(text, file=sys.stderr)] *)
Definition eprint {S} `{HasConsole S} (text : string) : M S unit :=
  modify (emit Stderr text).

End Py.

(* ===================================================================== *)
(** ** The file system *)
(* ===================================================================== *)

Module Fs.

(** A regular file has its bytes and its modification time (whole seconds
    since the epoch); a directory lists its entries by name.  The server
    only reads: the tree is never changed.  The tree describes a directory
    without symbolic links in which the server may read every file and list
    every directory; links, which [stat] and [open] follow, and permissions
    are not modelled. *)
#[warnings="-register-all"]
Inductive node : Type :=
| File (content : string) (mtime : Z)
| Dir (entries : list (string * node)).

Fixpoint find_entry (name : string) (entries : list (string * node))
  : option node :=
  match entries with
  | [] => None
  | (n, x) :: rest => if String.eqb n name then Some x else find_entry name rest
  end.

(** The node a list of components leads to, from [n]. *)
Fixpoint lookup (n : node) (components : list string) : option node :=
  match components with
  | [] => Some n
  | name :: rest =>
      match n with
      | Dir entries =>
          match find_entry name entries with
          | Some child => lookup child rest
          | None => None
          end
      | File _ _ => None
      end
  end.

(** A path string, as the handler builds it: the components below the
    launch directory, and whether the string ends in ["/"]. *)
Definition path : Type := (list string * bool)%type.

(** [os.path.join(p, name)] *)
Definition join (p : path) (name : string) : path :=
  ((fst p ++ [name])%list, false).

(** [p.endswith("/")] *)
Definition endswith_slash (p : path) : bool := snd p.

(** Whether the path string holds a NUL character, which no system call
    accepts: Python raises [ValueError] before the call is made. *)
Definition name_has_nul (name : string) : bool :=
  existsb (fun c => Ascii.eqb c Ascii.zero) (list_ascii_of_string name).

Definition has_nul (p : path) : bool := existsb name_has_nul (fst p).

(** [os.path.isdir(p)]; a trailing slash does not matter for a directory.
    The [ValueError] of a path with NUL is caught: the answer is false. *)
Definition isdir (root : node) (p : path) : bool :=
  if has_nul p then false else
  match lookup root (fst p) with
  | Some (Dir _) => true
  | _ => false
  end.

(** [os.path.isfile(p)]; a regular file named with a trailing slash is not
    found, and a path with NUL is no file. *)
Definition isfile (root : node) (p : path) : bool :=
  if has_nul p then false else
  match lookup root (fst p) with
  | Some (File _ _) => negb (snd p)
  | _ => false
  end.

(** What [open(p, 'rb')] does: the file is opened, or [open] raises
    [OSError] (no such file, a directory, a file named with a trailing
    slash), or it raises [ValueError] for a path with NUL. *)
Inductive opening : Type :=
| Opened (content : string) (mtime : Z)
| OSError
| ValueError.

(** [open(p, 'rb')], with the content read and the time of [os.fstat]. *)
Definition open_rb (root : node) (p : path) : opening :=
  if has_nul p then ValueError else
  match lookup root (fst p) with
  | Some (File content mtime) => if snd p then OSError else Opened content mtime
  | _ => OSError
  end.

(** [os.listdir(p)], each name with [os.path.isdir] of the entry. *)
Definition listdir (root : node) (p : path) : list (string * bool) :=
  match lookup root (fst p) with
  | Some (Dir entries) =>
      map (fun e => (fst e, match snd e with Dir _ => true | File _ _ => false end))
          entries
  | _ => []
  end.

End Fs.

(* ===================================================================== *)
(** ** The request handlers of [http.server] *)
(* ===================================================================== *)

Module HttpServer.
Import Py.
Local Open Scope py_scope.

(** *** Strings *)

Definition lower_ascii (c : ascii) : ascii :=
  let n := nat_of_ascii c in
  if (Nat.leb 65 n && Nat.leb n 90)%bool then ascii_of_nat (n + 32) else c.

(** [s.lower()], on ASCII letters. *)
Fixpoint lower (s : string) : string :=
  match s with
  | EmptyString => EmptyString
  | String c rest => String (lower_ascii c) (lower rest)
  end.

(** [s.split(c, 1)[0]]: what stands before the first [c]. *)
Fixpoint before (c : ascii) (s : string) : string :=
  match s with
  | EmptyString => EmptyString
  | String d rest => if Ascii.eqb d c then EmptyString else String d (before c rest)
  end.

(** [s.endswith("/")] *)
Fixpoint endswith_slash (s : string) : bool :=
  match s with
  | EmptyString => false
  | String c EmptyString => Ascii.eqb c "/"
  | String _ rest => endswith_slash rest
  end.

(** [s.lstrip("/")] *)
Fixpoint lstrip_slash (s : string) : string :=
  match s with
  | String "/" rest => lstrip_slash rest
  | _ => s
  end.

(** [s.split("/")] *)
Fixpoint split_slash (s : string) : list string :=
  match s with
  | EmptyString => [EmptyString]
  | String c rest =>
      if Ascii.eqb c "/" then EmptyString :: split_slash rest
      else match split_slash rest with
           | w :: ws => String c w :: ws
           | [] => [String c EmptyString]
           end
  end.

(** ["/".join(words)] *)
Fixpoint join_slash (words : list string) : string :=
  match words with
  | [] => EmptyString
  | [w] => w
  | w :: ws => w ++ "/" ++ join_slash ws
  end.

Definition hex_digit (c : ascii) : option nat :=
  let n := nat_of_ascii c in
  if (Nat.leb 48 n && Nat.leb n 57)%bool then Some (n - 48)%nat
  else if (Nat.leb 65 n && Nat.leb n 70)%bool then Some (n - 55)%nat
  else if (Nat.leb 97 n && Nat.leb n 102)%bool then Some (n - 87)%nat
  else None.

(** [urllib.parse.unquote] on a string of ASCII characters whose escapes
    name ASCII characters: every [%XX] with two hexadecimal digits becomes
    the character it names; any other [%] stays.  Outside that domain
    Python decodes the escaped bytes as UTF-8, which this function, on
    bytes, does not follow. *)
Fixpoint unquote (s : string) : string :=
  match s with
  | EmptyString => EmptyString
  | String c rest =>
      if Ascii.eqb c "%" then
        match rest with
        | String a (String b rest') =>
            match hex_digit a, hex_digit b with
            | Some h, Some l => String (ascii_of_nat (16 * h + l)) (unquote rest')
            | _, _ => String c (unquote rest)
            end
        | _ => String c (unquote rest)
        end
      else String c (unquote rest)
  end.

(** One round of the loop of [posixpath.normpath] over the components. *)
Definition normpath_step (initial_slashes : nat) (new_comps : list string)
  (comp : string) : list string :=
  if (String.eqb comp "" || String.eqb comp ".")%bool then new_comps
  else if (negb (String.eqb comp "..")
           || (Nat.eqb initial_slashes 0 && Nat.eqb (List.length new_comps) 0)
           || (negb (Nat.eqb (List.length new_comps) 0)
               && String.eqb (last new_comps "") ".."))%bool
       then (new_comps ++ [comp])%list
       else removelast new_comps.

(** [posixpath.normpath(path)] *)
Definition normpath (path : string) : string :=
  if String.eqb path "" then "." else
  let initial_slashes :=
    if String.prefix "/" path then
      if (String.prefix "//" path && negb (String.prefix "///" path))%bool
      then 2%nat else 1%nat
    else 0%nat in
  let comps := fold_left (normpath_step initial_slashes) (split_slash path) [] in
  let joined := String.concat "" (repeat "/" initial_slashes) ++ join_slash comps in
  if String.eqb joined "" then "." else joined.

(** [s.split(c, 1)[1]]: what stands after the first [c], if there is one. *)
Fixpoint after (c : ascii) (s : string) : string :=
  match s with
  | EmptyString => EmptyString
  | String d rest => if Ascii.eqb d c then rest else after c rest
  end.

(** [urllib.parse.urlsplit(target)] for a request target in origin form,
    one that starts with ["/"] (and not with two, which [parse_request]
    has reduced to one): it has neither scheme nor host; the fragment is
    split off at the first ["#"], then the query at the first ["?"] of what
    stands before.  Other targets, in which [urlsplit] looks for a scheme
    and a host, are outside this function's domain. *)
Definition urlsplit (target : string) : string * string * string :=
  let url := before "#" target in
  (before "?" url, after "?" url, after "#" target).

(** The path of [urlsplit]. *)
Definition url_path (target : string) : string := fst (fst (urlsplit target)).

(** [urllib.parse.urlunsplit] of a path, a query and a fragment: an empty
    query or fragment is left out with its mark. *)
Definition urlunsplit (path query fragment : string) : string :=
  path
  ++ (if String.eqb query "" then "" else "?" ++ query)
  ++ (if String.eqb fragment "" then "" else "#" ++ fragment).

(** [f.read(n)] on what is left of a file: the first [n] bytes, and what
    stays. *)
Fixpoint read (n : nat) (s : string) : string * string :=
  match n, s with
  | S n', String c rest => let '(a, b) := read n' rest in (String c a, b)
  | _, _ => (EmptyString, s)
  end.

(** The loop of [shutil.copyfileobj]: the pieces read, of [length] bytes
    but for the last, until a read gives nothing.  The loop runs at most
    once for each byte of the file. *)
Fixpoint copy_loop (fuel : nat) (length : nat) (s : string) : list string :=
  match fuel with
  | O => []
  | S fuel' =>
      let '(buf, rest) := read length s in
      if String.eqb buf "" then [] else buf :: copy_loop fuel' length rest
  end.

Definition copyfileobj (length : nat) (content : string) : list string :=
  copy_loop (S (String.length content)) length content.

(** *** The platform

    What the handler takes from the rest of the standard library and from
    the machine.  The properties below hold whatever these are. *)
Record platform : Type := {
  (** [sys_version], such as ["Python/3.11.2"] *)
  sys_version : string;
  (** [email.utils.formatdate(t, usegmt=True)] *)
  formatdate : Z -> string;
  (** [log_date_time_string()] at time [t] *)
  log_date : Z -> string;
  (** the MIME type [mimetypes] guesses for a file name *)
  mime_type : string -> string;
  (** [repr(s)] of a string *)
  repr : string -> string;
  (** the escaping of control characters in the default log line *)
  escape_control : string -> string;
  (** the HTML page of an error response: code, message, explanation *)
  error_page : Z -> string -> string -> string;
  (** the HTML page listing a directory: the unquoted request path and the
      entries (which the page sorts), each with whether it is a directory *)
  listing_page : string -> list (string * bool) -> string;
  (** [sys.getfilesystemencoding()] *)
  fs_encoding : string;
  (** [shutil.COPY_BUFSIZE]: 64 KiB, on Windows 1 MiB *)
  copy_bufsize : positive
}.

(** *** Requests

    A request is one whose request line and headers [parse_request]
    accepted.  The fields are those of the handler object that the code
    below reads.  The handler's [protocol_version] is ["HTTP/1.0"]: every
    connection carries one request, and [Expect: 100-continue] is not
    answered.  Request lines that [parse_request] refuses, which it answers
    itself with an error, are not modelled. *)
Record request : Type := {
  (** the peer: host and port *)
  client_address : string * Z;
  (** the request line, without its line end *)
  requestline : string;
  (** the method word of the request line *)
  command : string;
  (** the target word of the request line *)
  target : string;
  (** the [If-Modified-Since] header, when present and a well-formed UTC
      date: its time in seconds since the epoch *)
  if_modified_since : option Z;
  (** whether an [If-None-Match] header is present *)
  if_none_match : bool;
  (** [time.time()] while the request is handled *)
  clock : Z
}.

(** [self.path]: [parse_request] reduces leading slashes to one when the
    target starts with two. *)
Definition path (self : request) : string :=
  if String.prefix "//" (target self)
  then "/" ++ lstrip_slash (target self)
  else target self.

(** *** What a handler writes *)

(** A line of the header block. *)
Inductive hline : Type :=
| StatusLine (protocol : string) (code : Z) (message : string)
| HeaderLine (keyword value : string)
| BlankLine.

(** A [wfile.write] call: a flushed header block, or body bytes. *)
Inductive chunk : Type :=
| Head (lines : list hline)
| Body (bytes : string).

(** The mutable part of a handler and the streams it writes to.
    [http_0_9] says whether [self.request_version] is ["HTTP/0.9"]: it is
    for a request line of two words, [GET target], and for one whose third
    word is [HTTP/0.9]; for these the handler sends neither status line
    nor headers. *)
Record conn : Type := {
  http_0_9 : bool;
  headers_buffer : list hline;
  wfile : list chunk;
  close_connection : bool;
  stdio : console
}.

#[export] Instance conn_console : HasConsole conn :=
  { emit st text c :=
      {| http_0_9 := http_0_9 c;
         headers_buffer := headers_buffer c; wfile := wfile c;
         close_connection := close_connection c;
         stdio := (stdio c ++ [(st, text)])%list |} }.

Definition buffer_line (l : hline) : M conn unit :=
  modify (fun c =>
    {| http_0_9 := http_0_9 c;
       headers_buffer := (headers_buffer c ++ [l])%list; wfile := wfile c;
       close_connection := close_connection c; stdio := stdio c |}).

Definition set_close_connection (b : bool) : M conn unit :=
  modify (fun c =>
    {| http_0_9 := http_0_9 c;
       headers_buffer := headers_buffer c; wfile := wfile c;
       close_connection := b; stdio := stdio c |}).

(** [self.wfile.write(body)] *)
Definition write (body : string) : M conn unit :=
  modify (fun c =>
    {| http_0_9 := http_0_9 c;
       headers_buffer := headers_buffer c;
       wfile := (wfile c ++ [Body body])%list;
       close_connection := close_connection c; stdio := stdio c |}).

(** [flush_headers]: the buffered lines go out in one write. *)
Definition flush_headers : M conn unit :=
  modify (fun c =>
    {| http_0_9 := http_0_9 c;
       headers_buffer := [];
       wfile := (wfile c ++ [Head (headers_buffer c)])%list;
       close_connection := close_connection c; stdio := stdio c |}).

(** *** The overridable methods

    A handler class, as far as subclasses change it: the two methods the
    library calls on [self] and that [serve.py] overrides. *)
Record handler_class : Type := {
  end_headers : request -> M conn unit;
  log_message : request -> string -> list pyval -> M conn unit
}.

(** The status phrases and explanations of [http.HTTPStatus] for the codes
    the handler sends. *)
Definition responses (code : Z) : option (string * string) :=
  if code =? 200 then Some ("OK", "Request fulfilled, document follows")
  else if code =? 301 then
    Some ("Moved Permanently", "Object moved permanently -- see URI list")
  else if code =? 304 then
    Some ("Not Modified", "Document has not changed since given time")
  else if code =? 404 then Some ("Not Found", "Nothing matches the given URI")
  else if code =? 501 then
    Some ("Not Implemented", "Server does not support this operation")
  else None.

(** The format of the access line: ["%s" %s %s] with the first [%s] between
    double quotes. *)
Definition request_format : string :=
  Eval cbv in
    (String (ascii_of_nat 34) "%s" ++ String (ascii_of_nat 34) " %s %s").

Definition protocol_version : string := "HTTP/1.0".
Definition server_version : string := "SimpleHTTP/0.6".
Definition error_content_type : string := "text/html;charset=utf-8".

Section Handler.

Variable P : platform.

(** [version_string()] *)
Definition version_string : string := server_version ++ " " ++ sys_version P.

(** [BaseHTTPRequestHandler.send_response_only]: nothing for HTTP/0.9. *)
Definition send_response_only (code : Z) (message : option string)
  : M conn unit :=
  old <- gets http_0_9 ;;
  if old then ret tt
  else
    let message :=
      match message with
      | Some m => m
      | None => match responses code with
                | Some (shortmsg, _) => shortmsg
                | None => ""
                end
      end in
    buffer_line (StatusLine protocol_version code message).

(** [BaseHTTPRequestHandler.send_header]: the header is buffered unless
    the request is HTTP/0.9; a [Connection] header sets
    [close_connection] in either case. *)
Definition send_header (keyword value : string) : M conn unit :=
  old <- gets http_0_9 ;;
  (if old then ret tt else buffer_line (HeaderLine keyword value)) ;;
  if String.eqb (lower keyword) "connection" then
    if String.eqb (lower value) "close" then set_close_connection true
    else if String.eqb (lower value) "keep-alive" then set_close_connection false
    else ret tt
  else ret tt.

(** [BaseHTTPRequestHandler.end_headers]: nothing for HTTP/0.9. *)
Definition base_end_headers (self : request) : M conn unit :=
  old <- gets http_0_9 ;;
  if old then ret tt
  else
    buffer_line BlankLine ;;
    flush_headers.

(** [BaseHTTPRequestHandler.log_message]: the peer's address and the time
    stand before the message, on standard error. *)
Definition base_log_message (self : request) (format : string)
  (args : list pyval) : M conn unit :=
  match percent format args with
  | Some message =>
      eprint (fst (client_address self) ++ " - - [" ++ log_date P (clock self)
              ++ "] " ++ escape_control P message)
  | None => raise (Exception "TypeError" "not all arguments converted during string formatting")
  end.

(** [SimpleHTTPRequestHandler], with nothing overridden. *)
Definition SimpleHTTPRequestHandler : handler_class :=
  {| end_headers := base_end_headers; log_message := base_log_message |}.

Variable C : handler_class.

(** [log_request(code)], with the default size ['-'] *)
Definition log_request (self : request) (code : Z) : M conn unit :=
  log_message C self request_format
    [PStr (requestline self); PStr (str_int code); PStr "-"].

(** [log_error(format, *args)] *)
Definition log_error (self : request) (format : string) (args : list pyval)
  : M conn unit :=
  log_message C self format args.

(** [send_response(code, message)] *)
Definition send_response (self : request) (code : Z) (message : option string)
  : M conn unit :=
  log_request self code ;;
  send_response_only code message ;;
  send_header "Server" version_string ;;
  send_header "Date" (formatdate P (clock self)).

(** [send_error(code, message)]; the explanation is the table's. *)
Definition send_error (self : request) (code : Z) (message : string)
  : M conn unit :=
  let explain :=
    match responses code with
    | Some (_, longmsg) => longmsg
    | None => "???"
    end in
  log_error self "code %d, message %s" [PInt code; PStr message] ;;
  send_response self code (Some message) ;;
  send_header "Connection" "close" ;;
  if ((200 <=? code) && negb ((code =? 204) || (code =? 205) || (code =? 304)))%bool
  then
    let body := error_page P code message explain in
    send_header "Content-Type" error_content_type ;;
    send_header "Content-Length" (str_int (Z.of_nat (String.length body))) ;;
    end_headers C self ;;
    if (negb (String.eqb (command self) "HEAD")
        && negb (String.eqb body ""))%bool
    then write body else ret tt
  else end_headers C self.

End Handler.

(** *** [SimpleHTTPRequestHandler] *)

Section Simple.

Variable P : platform.
Variable C : handler_class.
(** The file system, from the launch directory. *)
Variable root : Fs.node.
(** [self.directory]: the working directory when the handler was made, as
    components below the launch directory. *)
Variable directory : list string.

(** [translate_path(path)].  The request target is one word of the request
    line, so that the [rstrip()] before the test for a trailing slash has
    nothing to strip.  A word left by [split] contains no ["/"]: the test
    [os.path.dirname(word)] never holds and only ["."] and [".."] are
    skipped. *)
Definition translate_path (path : string) : Fs.path :=
  let path := before "?" path in
  let path := before "#" path in
  let trailing_slash := endswith_slash path in
  let path := unquote path in
  let path := normpath path in
  let words := split_slash path in
  let words := filter (fun w => negb (String.eqb w "")) words in
  let words :=
    filter (fun w => negb (String.eqb w "." || String.eqb w "..")%bool) words in
  ((directory ++ words)%list, trailing_slash).

(** The last component of a path, from which the MIME type is guessed. *)
Definition basename (p : Fs.path) : string := last (fst p) "".

(** [list_directory(path)]: the listing is sent as a page with status 200;
    the page is the file object returned. *)
Definition list_directory (self : request) (p : Fs.path)
  : M conn (option string) :=
  let encoded := listing_page P (unquote (path self)) (Fs.listdir root p) in
  send_response P C self 200 None ;;
  send_header "Content-type" ("text/html; charset=" ++ fs_encoding P) ;;
  send_header "Content-Length" (str_int (Z.of_nat (String.length encoded))) ;;
  end_headers C self ;;
  ret (Some encoded).

(** The test of [send_head] for the browser's cached copy: an
    [If-Modified-Since] date not before the file's modification time, and
    no [If-None-Match]. *)
Definition not_modified (self : request) (mtime : Z) : bool :=
  match if_modified_since self with
  | Some ims => (negb (if_none_match self) && (mtime <=? ims))%bool
  | None => false
  end.

(** [send_head], from [ctype = self.guess_type(path)] on: the path is that
    of the request or of the index page found.  Only the [OSError] of
    [open] is caught; its [ValueError] leaves the handler, nothing having
    been sent. *)
Definition send_head_file (self : request) (p : Fs.path)
  : M conn (option string) :=
  let ctype := mime_type P (basename p) in
  if Fs.endswith_slash p then
    send_error P C self 404 "File not found" ;;
    ret None
  else
    match Fs.open_rb root p with
    | Fs.OSError =>
        send_error P C self 404 "File not found" ;;
        ret None
    | Fs.ValueError => raise (Exception "ValueError" "embedded null byte")
    | Fs.Opened content mtime =>
        if not_modified self mtime then
          send_response P C self 304 None ;;
          end_headers C self ;;
          ret None
        else
          send_response P C self 200 None ;;
          send_header "Content-type" ctype ;;
          send_header "Content-Length" (str_int (Z.of_nat (String.length content))) ;;
          send_header "Last-Modified" (formatdate P mtime) ;;
          end_headers C self ;;
          ret (Some content)
    end.

(** The [for index in "index.html", "index.htm"] loop. *)
Definition index_page (p : Fs.path) : option Fs.path :=
  if Fs.isfile root (Fs.join p "index.html") then Some (Fs.join p "index.html")
  else if Fs.isfile root (Fs.join p "index.htm") then Some (Fs.join p "index.htm")
  else None.

(** [send_head()]: sends the status line and the headers; returns the
    content to copy to the client, if any. *)
Definition send_head (self : request) : M conn (option string) :=
  let p := translate_path (path self) in
  if Fs.isdir root p then
    if negb (endswith_slash (url_path (path self))) then
      send_response P C self 301 None ;;
      send_header "Location"
        (let '(p, query, fragment) := urlsplit (path self) in
         urlunsplit (p ++ "/") query fragment) ;;
      send_header "Content-Length" "0" ;;
      end_headers C self ;;
      ret None
    else
      match index_page p with
      | Some index => send_head_file self index
      | None => list_directory self p
      end
  else send_head_file self p.

(** [copyfile(source, self.wfile)]: [shutil.copyfileobj] writes every
    piece it reads, in order, each with one [write]; nothing is written
    for an empty source. *)
Definition copyfile (content : string) : M conn unit :=
  modify (fun c =>
    {| http_0_9 := http_0_9 c;
       headers_buffer := headers_buffer c;
       wfile := (wfile c
                 ++ map Body (copyfileobj (Pos.to_nat (copy_bufsize P)) content))%list;
       close_connection := close_connection c; stdio := stdio c |}).

(** [do_GET()] *)
Definition do_GET (self : request) : M conn unit :=
  f <- send_head self ;;
  match f with
  | Some content => copyfile content
  | None => ret tt
  end.

(** [do_HEAD()] *)
Definition do_HEAD (self : request) : M conn unit :=
  f <- send_head self ;;
  ret tt.

(** [handle_one_request()], once the request is parsed: the method named
    [do_] followed by the command runs, if the class has one. *)
Definition handle_one_request (self : request) : M conn unit :=
  if String.eqb (command self) "GET" then do_GET self
  else if String.eqb (command self) "HEAD" then do_HEAD self
  else
    send_error P C self 501
      ("Unsupported method (" ++ repr P (command self) ++ ")").

(** The handler once [parse_request] has accepted a request line whose
    version is not HTTP/0.9: nothing buffered or sent, [close_connection]
    set, and the console as the process left it. *)
Definition fresh (out : console) : conn :=
  {| http_0_9 := false; headers_buffer := []; wfile := [];
     close_connection := true; stdio := out |}.

(** The same for a request line of two words or with the version
    HTTP/0.9. *)
Definition fresh_0_9 (out : console) : conn :=
  {| http_0_9 := true; headers_buffer := []; wfile := [];
     close_connection := true; stdio := out |}.

End Simple.

(** *** Reading a response back *)

(** The lines of the header blocks sent. *)
Fixpoint sent_lines (w : list chunk) : list hline :=
  match w with
  | [] => []
  | Head lines :: rest => (lines ++ sent_lines rest)%list
  | Body _ :: rest => sent_lines rest
  end.

(** The body bytes sent. *)
Fixpoint sent_body (w : list chunk) : string :=
  match w with
  | [] => EmptyString
  | Head _ :: rest => sent_body rest
  | Body b :: rest => b ++ sent_body rest
  end.

(** The status codes on the status lines sent. *)
Fixpoint status_codes (lines : list hline) : list Z :=
  match lines with
  | [] => []
  | StatusLine _ code _ :: rest => code :: status_codes rest
  | _ :: rest => status_codes rest
  end.

(** The header fields sent, in order. *)
Fixpoint fields (lines : list hline) : list (string * string) :=
  match lines with
  | [] => []
  | HeaderLine k v :: rest => (k, v) :: fields rest
  | _ :: rest => fields rest
  end.

(** Field names are case-insensitive: a CORS field is one whose name
    starts with [access-control-]. *)
Definition is_cors_field (f : string * string) : bool :=
  String.prefix "access-control-" (lower (fst f)).

Definition cors_fields (w : list chunk) : list (string * string) :=
  filter is_cors_field (fields (sent_lines w)).

End HttpServer.

(* ===================================================================== *)
(** ** The script [serve.py] *)
(* ===================================================================== *)

Module Serve.
Import Py HttpServer.
Local Open Scope py_scope.

Definition PORT : Z := 8080.

(** *** [class MyHTTPRequestHandler(http.server.SimpleHTTPRequestHandler)] *)

(** [end_headers]: the three CORS headers, then [super().end_headers()]. *)
Definition end_headers (self : request) : M conn unit :=
  send_header "Access-Control-Allow-Origin" "*" ;;
  send_header "Access-Control-Allow-Methods" "GET, POST, OPTIONS" ;;
  send_header "Access-Control-Allow-Headers" "Content-Type" ;;
  base_end_headers self.

(** [log_message]: [print(f"[SERVER] {format % args}")].  When [%] raises
    (a [TypeError] or a [ValueError], here one exception), nothing is
    printed. *)
Definition log_message (self : request) (format : string) (args : list pyval)
  : M conn unit :=
  match percent format args with
  | Some message => print ("[SERVER] " ++ message)
  | None =>
      raise (Exception "TypeError"
               "not all arguments converted during string formatting")
  end.

Definition MyHTTPRequestHandler : handler_class :=
  {| HttpServer.end_headers := end_headers;
     HttpServer.log_message := log_message |}.

(** *** The process and its surroundings *)

(** What ends [serve_forever], which does not return by itself: the
    interrupt signal, delivered as [KeyboardInterrupt], or a failure of the
    serving loop, an instance of [Exception].  [SystemExit] is raised by
    [sys.exit] only, which the script calls in its [except] clauses. *)
Inductive fault : Type :=
| Interrupt
| Failure (cls msg : string).

Definition exn_of_fault (f : fault) : exn :=
  match f with
  | Interrupt => KeyboardInterrupt
  | Failure cls msg => Exception cls msg
  end.

(** A TCP address as Python writes it: host and port.  The empty host is
    every interface. *)
Definition address : Type := (string * Z)%type.

(** The protocol family of a socket.  An IPv6 socket is marked when it
    holds its port for IPv4 as well (a wildcard socket that accepts IPv4
    peers). *)
Inductive family : Type :=
| AF_INET
| AF_INET6 (holds_ipv4 : bool).

(** A socket that holds a local TCP port: a listening socket, or a
    connection that lingers after its server was closed. *)
Record socket : Type := {
  socket_family : family;
  local : address
}.

(** What the script finds when it is launched. *)
Record world : Type := {
  machine : platform;
  (** the absolute path of the launch directory, as [os.getcwd()] gives
      it: ["/"], or a path that does not end in ["/"] *)
  launch_path : string;
  (** the files below the launch directory *)
  files : Fs.node;
  (** the sockets of the machine that hold a local TCP port at launch *)
  listening : list socket;
  (** the requests that arrive before [serve_forever] ends, one on each
      connection: those whose request line [parse_request] accepts with a
      version other than HTTP/0.9 *)
  traffic : list request;
  (** what ends [serve_forever] *)
  stop : fault
}.

(** The state of the process and of what it shares with others. *)
Record proc : Type := {
  (** the working directory, as components below the launch directory *)
  cwd : list string;
  (** the sockets of the machine that hold a local TCP port *)
  sockets : list socket;
  (** what was printed *)
  out : console;
  (** what was written to each client, oldest first; nothing, for a
      client whose handler raised before it wrote *)
  replies : list (list chunk)
}.

#[export] Instance proc_console : HasConsole proc :=
  { emit st text p :=
      {| cwd := cwd p; sockets := sockets p;
         out := (out p ++ [(st, text)])%list; replies := replies p |} }.

Definition initial (w : world) : proc :=
  {| cwd := []; sockets := listening w; out := []; replies := [] |}.

(** [os.chdir(name)] for a relative name of one component. *)
Definition os_chdir (w : world) (name : string) : M proc unit :=
  fun p =>
    match Fs.lookup (files w) (cwd p ++ [name])%list with
    | Some (Fs.Dir _) =>
        ({| cwd := (cwd p ++ [name])%list; sockets := sockets p;
            out := out p; replies := replies p |}, Ret tt)
    | Some (Fs.File _ _) =>
        (p, Raise (Exception "NotADirectoryError"
                     ("[Errno 20] Not a directory: '" ++ name ++ "'")))
    | None =>
        (p, Raise (Exception "FileNotFoundError"
                     ("[Errno 2] No such file or directory: '" ++ name ++ "'")))
    end.

(** [os.path.join(base, name)] for a relative name. *)
Definition path_join (base name : string) : string :=
  if endswith_slash base then base ++ name else base ++ "/" ++ name.

(** [os.getcwd()] *)
Definition os_getcwd (w : world) : M proc string :=
  gets (fun p => fold_left path_join (cwd p) (launch_path w)).

(** *** [socketserver.TCPServer] *)

(** Whether a host names every IPv4 interface. *)
Definition any_host (host : string) : bool :=
  (String.eqb host "" || String.eqb host "0.0.0.0")%bool.

(** Whether binding an IPv4 socket to [a], without address reuse, fails
    because of the socket [s]: the ports are equal and [s] is an IPv4
    socket on the same host, or either host is every interface, or [s] is
    an IPv6 socket that holds the port for IPv4 too.  [allow_reuse_address]
    is false in [TCPServer], and its [address_family] is [AF_INET]. *)
Definition collide (a : address) (s : socket) : bool :=
  ((snd a =? snd (local s))
   && match socket_family s with
      | AF_INET =>
          any_host (fst a) || any_host (fst (local s))
          || String.eqb (fst a) (fst (local s))
      | AF_INET6 holds_ipv4 => holds_ipv4
      end)%bool.

Definition socket_eqb (a b : socket) : bool :=
  (match socket_family a, socket_family b with
   | AF_INET, AF_INET => true
   | AF_INET6 x, AF_INET6 y => Bool.eqb x y
   | _, _ => false
   end
   && String.eqb (fst (local a)) (fst (local b))
   && (snd (local a) =? snd (local b)))%bool.

(** [TCPServer(server_address, handler)]: an IPv4 socket is bound and
    listens, or [bind] fails with [EADDRINUSE] and nothing is bound. *)
Definition TCPServer (server_address : address) : M proc unit :=
  fun p =>
    if existsb (collide server_address) (sockets p) then
      (p, Raise (Exception "OSError" "[Errno 98] Address already in use"))
    else
      ({| cwd := cwd p;
          sockets := {| socket_family := AF_INET; local := server_address |}
                     :: sockets p;
          out := out p; replies := replies p |}, Ret tt).

Fixpoint remove_socket (a : socket) (l : list socket) : list socket :=
  match l with
  | [] => []
  | b :: rest => if socket_eqb a b then rest else b :: remove_socket a rest
  end.

(** [server_close()] *)
Definition server_close (server_address : address) : M proc unit :=
  modify (fun p =>
    {| cwd := cwd p;
       sockets := remove_socket
                    {| socket_family := AF_INET; local := server_address |}
                    (sockets p);
       out := out p; replies := replies p |}).

(** [with TCPServer(server_address, handler) as httpd: body]: the server is
    closed when the body is left, also by an exception, which goes on. *)
Definition with_TCPServer (server_address : address) (body : M proc unit)
  : M proc unit :=
  TCPServer server_address ;;
  fun p =>
    match body p with
    | (p', r) => (fst (server_close server_address p'), r)
    end.

(** [handle_error]: the report of a handler's exception on standard error;
    the frames of the traceback are left out. *)
Definition handle_error {S} `{HasConsole S} (P : platform) (self : request)
  (e : exn) : M S unit :=
  eprint "----------------------------------------" ;;
  eprint ("Exception occurred during processing of request from ("
          ++ repr P (fst (client_address self)) ++ ", "
          ++ str_int (snd (client_address self)) ++ ")") ;;
  eprint "Traceback (most recent call last):" ;;
  eprint (match e with
          | Exception cls msg => cls ++ ": " ++ msg
          | _ => ""
          end) ;;
  eprint "----------------------------------------".

(** The handler under the [try] statement of the serving loop: an
    [Exception] of the handler is reported and serving goes on; any other
    exception leaves [serve_forever]. *)
Definition handle_request (P : platform) (root : Fs.node) (dir : list string)
  (self : request) : M conn unit :=
  fun c =>
    match handle_one_request P MyHTTPRequestHandler root dir self c with
    | (c', Ret _) => (c', Ret tt)
    | (c', Raise e) =>
        if is_Exception e then handle_error P self e c' else (c', Raise e)
    end.

(** One connection: a [MyHTTPRequestHandler] is made for the request and
    handles it, printing on the console of the process. *)
Definition process_request (w : world) (self : request) : M proc unit :=
  fun p =>
    let '(c, r) :=
      handle_request (machine w) (files w) (cwd p) self (fresh (out p)) in
    ({| cwd := cwd p; sockets := sockets p; out := stdio c;
        replies := (replies p ++ [wfile c])%list |}, r).

Fixpoint serve (w : world) (requests : list request) : M proc unit :=
  match requests with
  | [] => raise (exn_of_fault (stop w))
  | self :: rest => process_request w self ;; serve w rest
  end.

(** [httpd.serve_forever()] *)
Definition serve_forever (w : world) : M proc unit := serve w (traffic w).

(** *** The module body *)

Definition newline : string := String (ascii_of_nat 10) EmptyString.

(** The two [except] clauses of the [try] statement. *)
Definition except_KeyboardInterrupt : clause proc :=
  (is_KeyboardInterrupt,
   fun _ => print (newline ++ "🛑 Server stopped") ;; sys_exit 0).

Definition except_Exception : clause proc :=
  (is_Exception,
   fun e => print ("❌ Server error: " ++ str_exn e) ;; sys_exit 1).

(** The body of the [try] statement. *)
Definition try_body (w : world) : M proc unit :=
  with_TCPServer ("", PORT)
    (print ("🚀 Server starting at http://localhost:" ++ str_int PORT) ;;
     d <- os_getcwd w ;;
     print ("📁 Serving files from: " ++ d) ;;
     print "🔍 Open http://localhost:8080 in your browser" ;;
     print "Press Ctrl+C to stop the server" ;;
     serve_forever w).

(** [serve.py], run as [__main__]: [os.chdir] stands before the [try]
    statement and outside it. *)
Definition script (w : world) : M proc unit :=
  os_chdir w "dist" ;;
  try_except (try_body w) [except_KeyboardInterrupt; except_Exception].

(** *** The interpreter's top level *)

(** How the process ends. *)
Inductive status : Type :=
| Exited (code : Z)
| Killed (signal : Z).

Definition SIGINT : Z := 2.

(** The traceback of an exception nothing caught, on standard error; the
    frames are left out. *)
Definition traceback (e : exn) : M proc unit :=
  eprint "Traceback (most recent call last):" ;;
  eprint (match e with
          | Exception cls msg => cls ++ ": " ++ msg
          | KeyboardInterrupt => "KeyboardInterrupt"
          | SystemExit _ => "SystemExit"
          end).

(** [python3 serve.py]: a script that runs to its end exits with 0;
    [SystemExit(n)] exits with [n] and prints nothing; any other exception
    is printed as a traceback, with exit status 1, or for
    [KeyboardInterrupt] the death by [SIGINT]. *)
Definition python3 (w : world) : proc * status :=
  match script w (initial w) with
  | (p, Ret _) => (p, Exited 0)
  | (p, Raise (SystemExit n)) => (p, Exited n)
  | (p, Raise KeyboardInterrupt) =>
      (fst (traceback KeyboardInterrupt p), Killed SIGINT)
  | (p, Raise (Exception cls msg)) =>
      (fst (traceback (Exception cls msg) p), Exited 1)
  end.

End Serve.

(* ===================================================================== *)
(** ** What the properties speak about *)
(* ===================================================================== *)

Module Spec.
Import Py HttpServer Serve.

(** The three CORS headers, in the order [end_headers] sends them. *)
Definition cors : list (string * string) :=
  [("Access-Control-Allow-Origin", "*");
   ("Access-Control-Allow-Methods", "GET, POST, OPTIONS");
   ("Access-Control-Allow-Headers", "Content-Type")].

(** The handler after the serving loop has had it handle [self], started
    with the console [out]: the request line had a version other than
    HTTP/0.9. *)
Definition handled (P : platform) (root : Fs.node) (dir : list string)
  (self : request) (out : console) : conn :=
  fst (handle_request P root dir self (fresh out)).

(** Whether the handler raises on [self]. *)
Definition handler_raises (P : platform) (root : Fs.node) (dir : list string)
  (self : request) : bool :=
  match snd (handle_one_request P MyHTTPRequestHandler root dir self (fresh []))
  with
  | Raise _ => true
  | Ret _ => false
  end.

(** What the client of [self] is sent. *)
Definition reply (P : platform) (root : Fs.node) (dir : list string)
  (self : request) : list chunk :=
  wfile (handled P root dir self []).

(** What handling [self] prints: the handler's log lines, and the report
    of the serving loop when the handler raises. *)
Definition log_lines (P : platform) (root : Fs.node) (dir : list string)
  (self : request) : console :=
  stdio (handled P root dir self []).

(** What the library's own class, with nothing overridden, sends. *)
Definition library_reply (P : platform) (root : Fs.node) (dir : list string)
  (self : request) : list chunk :=
  wfile (fst (handle_one_request P (SimpleHTTPRequestHandler P) root dir self
                (fresh []))).

(** What the client is sent when the request line is of HTTP/0.9: by the
    script's handler, and by the library's own class. *)
Definition reply_0_9 (P : platform) (root : Fs.node) (dir : list string)
  (self : request) : list chunk :=
  wfile (fst (handle_request P root dir self (fresh_0_9 []))).

Definition library_reply_0_9 (P : platform) (root : Fs.node)
  (dir : list string) (self : request) : list chunk :=
  wfile (fst (handle_one_request P (SimpleHTTPRequestHandler P) root dir self
                (fresh_0_9 []))).

(** The status codes of a reply. *)
Definition status (r : list chunk) : list Z := status_codes (sent_lines r).

(** The code and the phrase of each status line. *)
Fixpoint status_lines (lines : list hline) : list (Z * string) :=
  match lines with
  | [] => []
  | StatusLine _ code message :: rest => (code, message) :: status_lines rest
  | _ :: rest => status_lines rest
  end.

(** The file a request path resolves to, in the words of the
    specification: the regular file the path names below the document
    root, or the index page of the directory it names with a trailing
    slash.  A path with a NUL character names nothing. *)
Definition resolves_to (root : Fs.node) (dir : list string) (path : string)
  : option (string * Z) :=
  let p := translate_path dir path in
  if Fs.has_nul p then None else
  match Fs.lookup root (fst p) with
  | Some (Fs.File content mtime) => if snd p then None else Some (content, mtime)
  | Some (Fs.Dir _) =>
      if snd p then
        match Fs.lookup root (fst p ++ ["index.html"])%list with
        | Some (Fs.File content mtime) => Some (content, mtime)
        | _ =>
            match Fs.lookup root (fst p ++ ["index.htm"])%list with
            | Some (Fs.File content mtime) => Some (content, mtime)
            | _ => None
            end
        end
      else None
  | None => None
  end.



(** The report of the serving loop for a handler that raised [e]. *)
Definition error_report (P : platform) (self : request) (e : exn) : console :=
  [(Stderr, "----------------------------------------");
   (Stderr, "Exception occurred during processing of request from ("
            ++ repr P (fst (client_address self)) ++ ", "
            ++ str_int (snd (client_address self)) ++ ")");
   (Stderr, "Traceback (most recent call last):");
   (Stderr, match e with
            | Exception cls msg => cls ++ ": " ++ msg
            | _ => ""
            end);
   (Stderr, "----------------------------------------")].

(** The access line of a request answered with [code]. *)
Definition access_line (self : request) (code : Z) : string :=
  "[SERVER] " ++ String (ascii_of_nat 34) (requestline self)
  ++ String (ascii_of_nat 34) (" " ++ str_int code ++ " -").

(** The line [send_error] logs before the access line. *)
Definition error_line (code : Z) (message : string) : string :=
  "[SERVER] code " ++ str_int code ++ ", message " ++ message.

(** The four lines printed once the server is bound. *)
Definition banner (w : world) : console :=
  [(Stdout, "🚀 Server starting at http://localhost:8080");
   (Stdout, "📁 Serving files from: " ++ path_join (launch_path w) "dist");
   (Stdout, "🔍 Open http://localhost:8080 in your browser");
   (Stdout, "Press Ctrl+C to stop the server")].

Definition stopped_line : stream * string :=
  (Stdout, newline ++ "🛑 Server stopped").

Definition server_error_line (e : exn) : stream * string :=
  (Stdout, "❌ Server error: " ++ str_exn e).

(** The last line of the traceback of an exception nothing caught. *)
Definition traceback_line (e : exn) : stream * string :=
  (Stderr, match e with
           | Exception cls msg => cls ++ ": " ++ msg
           | KeyboardInterrupt => "KeyboardInterrupt"
           | SystemExit _ => "SystemExit"
           end).

(** Whether [dist] is a directory of the launch directory. *)
Definition has_dist (w : world) : bool :=
  match Fs.lookup (files w) ["dist"] with
  | Some (Fs.Dir _) => true
  | _ => false
  end.

(** Whether some socket of the machine holds [port], on whatever
    interface and in whatever family. *)
Definition port_taken (port : Z) (w : world) : bool :=
  existsb (fun s => snd (local s) =? port) (listening w).

(** Whether some socket of the machine holds [port] for IPv4: the bind of
    every IPv4 interface on [port] then fails. *)
Definition ipv4_port_taken (port : Z) (w : world) : bool :=
  existsb (collide ("", port)) (listening w).

(** The exception that startup or serving raises: that of [os.chdir], or
    else that of the bind, or else what ends [serve_forever]. *)
Definition raised (w : world) : exn :=
  match os_chdir w "dist" (initial w) with
  | (_, Raise e) => e
  | (p, Ret _) =>
      match TCPServer ("", PORT) p with
      | (_, Raise e) => e
      | (_, Ret _) => exn_of_fault (stop w)
      end
  end.

(** *** A machine, a launch directory and requests to run the script on *)

Definition demo_platform : platform :=
  {| sys_version := "Python/3.11.2";
     formatdate := fun t => "t=" ++ str_int t;
     log_date := fun t => "t=" ++ str_int t;
     mime_type := fun name => "application/octet-stream";
     repr := fun s => "'" ++ s ++ "'";
     escape_control := fun s => s;
     error_page := fun code message explain => message ++ ": " ++ explain;
     listing_page := fun path entries => String.concat " " (map fst entries);
     fs_encoding := "utf-8";
     copy_bufsize := 65536 |}.

Definition demo_files : Fs.node :=
  Fs.Dir [("dist",
           Fs.Dir [("index.html", Fs.File "<h1>Birch Lounge</h1>" 1000);
                   ("assets", Fs.Dir [("app.js", Fs.File "main()" 1000)])])].


Definition demo_request (method target : string) : request :=
  {| client_address := ("127.0.0.1", 50000);
     requestline := method ++ " " ++ target ++ " HTTP/1.1";
     command := method; target := target;
     if_modified_since := None; if_none_match := false; clock := 2000 |}.

(** The request a browser sends for a page it holds a copy of. *)
Definition demo_revalidation (target : string) : request :=
  {| client_address := ("127.0.0.1", 50000);
     requestline := "GET " ++ target ++ " HTTP/1.1";
     command := "GET"; target := target;
     if_modified_since := Some 1000; if_none_match := false; clock := 2000 |}.


Definition demo_world (fs : Fs.node) (others : list socket)
  (requests : list request) (f : fault) : world :=
  {| machine := demo_platform; launch_path := "/home/dev/birch-lounge-app";
     files := fs; listening := others; traffic := requests; stop := f |}.



(** *** Further notions *)


Definition is_body (c : chunk) : bool :=
  match c with Body _ => true | Head _ => false end.


(** A plain file name: not empty, neither ["."] nor [".."], and without
    ["/"]. *)
Definition plain_name (name : string) : Prop :=
  name <> "" /\ name <> "." /\ name <> ".."
  /\ ~ In "/"%char (list_ascii_of_string name).

(** The same request sent with the method HEAD. *)
Definition as_HEAD (self : request) : request :=
  {| client_address := client_address self;
     requestline :=
       "HEAD" ++ String.substring (String.length (command self))
                   (String.length (requestline self)) (requestline self);
     command := "HEAD"; target := target self;
     if_modified_since := if_modified_since self;
     if_none_match := if_none_match self; clock := clock self |}.

(** A launch directory where [dist] is a regular file. *)
Definition demo_files_dist_is_file : Fs.node :=
  Fs.Dir [("dist", Fs.File "not a directory" 1000)].

End Spec.

(* ===================================================================== *)
(** ** Running the handler and the script *)
(* ===================================================================== *)

Import Py HttpServer Serve Spec.
Local Open Scope py_scope.

(** *** Copying a file *)

Lemma append_empty_r (s : string) : s ++ "" = s.
Proof. induction s as [|c s IH]; cbn; [reflexivity|]. rewrite IH. reflexivity. Qed.

(** A read splits what is left, and takes something when it can. *)
Lemma read_spec (n : nat) (s : string) :
  fst (read n s) ++ snd (read n s) = s /\
  (String.length (snd (read n s)) <= String.length s)%nat /\
  (n <> O -> s <> "" ->
   fst (read n s) <> "" /\
   (String.length (snd (read n s)) < String.length s)%nat).
Proof.
  revert s; induction n as [|n IH]; intros s.
  - cbn. split; [reflexivity|]. split; [lia|]. intros Hn. contradiction.
  - destruct s as [|c s].
    + cbn. split; [reflexivity|]. split; [lia|]. intros _ Hs. contradiction.
    + cbn [read]. specialize (IH s).
      destruct (read n s) as [a b]; cbn [fst snd String.length append] in *.
      destruct IH as [Heq [Hle _]].
      split; [rewrite Heq; reflexivity|]. split; [lia|].
      intros _ _. split; [discriminate|lia].
Qed.

Lemma concat_cons (x : string) (xs : list string) :
  String.concat "" (x :: xs) = x ++ String.concat "" xs.
Proof.
  destruct xs as [|y ys]; cbn; [rewrite append_empty_r|]; reflexivity.
Qed.

(** With a buffer that is not empty, the pieces copied make up the file. *)
Lemma copy_loop_concat (length : nat) (fuel : nat) (s : string) :
  length <> O -> (String.length s < fuel)%nat ->
  String.concat "" (copy_loop fuel length s) = s.
Proof.
  intros Hlen. revert s; induction fuel as [|fuel IH]; intros s Hfuel; [lia|].
  cbn [copy_loop].
  pose proof (read_spec length s) as [Heq [_ Hsome]].
  destruct (read length s) as [buf rest]; cbn [fst snd] in *.
  destruct (String.eqb buf "") eqn:Hbuf.
  - apply String.eqb_eq in Hbuf. subst buf. cbn in Heq.
    destruct s as [|c s]; [reflexivity|].
    destruct (Hsome Hlen) as [Hne _]; [discriminate|]. contradiction.
  - apply String.eqb_neq in Hbuf.
    assert (Hs : s <> "") by (intros ->; destruct length; cbn in Heq;
      destruct buf; cbn in Heq; try discriminate; contradiction).
    destruct (Hsome Hlen Hs) as [_ Hlt].
    rewrite concat_cons, (IH rest); [exact Heq|lia].
Qed.

Lemma sent_lines_bodies (pieces : list string) :
  sent_lines (map Body pieces) = [].
Proof. induction pieces; cbn; [reflexivity|assumption]. Qed.

Lemma sent_body_bodies (pieces : list string) :
  sent_body (map Body pieces) = String.concat "" pieces.
Proof.
  induction pieces as [|x xs IH]; [reflexivity|].
  rewrite concat_cons. cbn [map sent_body]. rewrite IH. reflexivity.
Qed.

Lemma forallb_is_body (pieces : list string) :
  forallb is_body (map Body pieces) = true.
Proof. induction pieces; cbn; [reflexivity|assumption]. Qed.

(** What is sent for a file is the file. *)
Lemma sent_body_copy (P : platform) (content : string) :
  sent_body (map Body (copyfileobj (Pos.to_nat (copy_bufsize P)) content))
  = content.
Proof.
  rewrite sent_body_bodies. unfold copyfileobj.
  apply copy_loop_concat; lia.
Qed.

#[local] Arguments copyfileobj : simpl never.

(** *** The handler *)

(** Case analysis on the next test a computation is stuck on. *)
Ltac split_test :=
  match goal with
  | |- context [if ?b then _ else _] =>
      match type of b with bool => destruct b eqn:? end
  | |- context [match ?x with Some _ => _ | None => _ end] => destruct x eqn:?
  | |- context [match ?x with
                | Fs.Opened _ _ => _ | Fs.OSError => _ | Fs.ValueError => _
                end] => destruct x eqn:?
  end.

(** Unfolds the handler's methods down to the buffer operations. *)
Ltac unfold_handler :=
  unfold log_lines, reply, reply_0_9, library_reply, library_reply_0_9,
    handler_raises;
  unfold handled, handle_request, handle_one_request, do_GET, do_HEAD,
    send_head, send_head_file, list_directory, send_error, send_response,
    log_error, log_request.

Ltac run_handler :=
  unfold_handler; simpl; repeat (split_test; simpl).

Ltac finish_reply :=
  rewrite ?sent_lines_bodies, ?sent_body_copy, ?forallb_is_body, ?app_nil_r;
  simpl.

Section HandlerFacts.

Variable P : platform.
Variable root : Fs.node.
Variable dir : list string.

(** Under the serving loop a handler always comes back: its exceptions
    are instances of [Exception], which the loop reports. *)
Lemma handle_request_returns (self : request) (out : console) :
  snd (handle_request P root dir self (fresh out)) = Ret tt.
Proof. run_handler; reflexivity. Qed.

(** What is printed does not depend on what was printed before. *)
Lemma handled_console (self : request) (out : console) :
  stdio (handled P root dir self out) = (out ++ log_lines P root dir self)%list.
Proof. run_handler; rewrite <- ?app_assoc; reflexivity. Qed.

(** What is sent does not depend on the console. *)
Lemma handled_wfile (self : request) (out : console) :
  wfile (handled P root dir self out) = reply P root dir self.
Proof. run_handler; reflexivity. Qed.


End HandlerFacts.

Section ScriptFacts.

Variable w : world.

Lemma process_request_run (self : request) (p : proc) :
  process_request w self p =
  ({| cwd := cwd p; sockets := sockets p;
      out := (out p ++ log_lines (machine w) (files w) (cwd p) self)%list;
      replies := (replies p ++ [reply (machine w) (files w) (cwd p) self])%list |},
   Ret tt).
Proof.
  unfold process_request.
  pose proof (handle_request_returns (machine w) (files w) (cwd p) self (out p)) as Hr.
  pose proof (handled_console (machine w) (files w) (cwd p) self (out p)) as Hc.
  pose proof (handled_wfile (machine w) (files w) (cwd p) self (out p)) as Hw.
  unfold handled in Hc, Hw.
  destruct (handle_request _ _ _ _ _) as [c r]; cbn [fst snd] in *.
  subst r. rewrite Hc, Hw. reflexivity.
Qed.

(** [serve_forever] answers the traffic in order and ends with the fault. *)
Lemma serve_run (requests : list request) (p : proc) :
  serve w requests p =
  ({| cwd := cwd p; sockets := sockets p;
      out := (out p ++ flat_map (log_lines (machine w) (files w) (cwd p)) requests)%list;
      replies := (replies p ++ map (reply (machine w) (files w) (cwd p)) requests)%list |},
   Raise (exn_of_fault (stop w))).
Proof.
  revert p; induction requests as [|self rest IH]; intros p; cbn [serve flat_map map].
  - unfold raise. rewrite !app_nil_r. destruct p; reflexivity.
  - unfold bind. rewrite process_request_run, IH; cbn.
    rewrite <- !app_assoc. reflexivity.
Qed.

(** [os.chdir('dist')] succeeds exactly when [dist] is a directory. *)
Lemma chdir_dist :
  has_dist w = true ->
  os_chdir w "dist" (initial w) =
  ({| cwd := ["dist"]; sockets := listening w; out := []; replies := [] |}, Ret tt).
Proof.
  unfold has_dist, os_chdir. cbn [initial cwd app].
  destruct (Fs.lookup (files w) ["dist"]) as [[c m|es]|]; try discriminate.
  reflexivity.
Qed.

(** A port no socket holds is free for IPv4. *)
Lemma port_free_for_ipv4 (port : Z) :
  port_taken port w = false -> ipv4_port_taken port w = false.
Proof.
  unfold port_taken, ipv4_port_taken.
  induction (listening w) as [|s l IH]; cbn; [reflexivity|].
  intros H. apply orb_false_iff in H. destruct H as [Hs Hl].
  rewrite (IH Hl), orb_false_r. unfold collide; cbn [snd].
  rewrite Z.eqb_sym, Hs. reflexivity.
Qed.

(** The run with [dist] in place and the port free for IPv4. *)
Lemma run_serving :
  has_dist w = true -> ipv4_port_taken PORT w = false ->
  python3 w =
  ({| cwd := ["dist"]; sockets := listening w;
      out := (banner w
              ++ flat_map (log_lines (machine w) (files w) ["dist"]) (traffic w)
              ++ [match stop w with
                  | Interrupt => stopped_line
                  | Failure cls msg => server_error_line (Exception cls msg)
                  end])%list;
      replies := map (reply (machine w) (files w) ["dist"]) (traffic w) |},
   Exited (match stop w with Interrupt => 0 | Failure _ _ => 1 end)).
Proof.
  intros Hd Hp. unfold python3, script, bind. rewrite (chdir_dist Hd).
  unfold try_except, try_body, with_TCPServer, bind, TCPServer.
  cbn [sockets]. unfold ipv4_port_taken in Hp. rewrite Hp.
  cbn. unfold serve_forever. rewrite serve_run. cbn.
  destruct (stop w); cbn; rewrite <- ?app_assoc; reflexivity.
Qed.

(** The run with [dist] in place and the port held for IPv4. *)
Lemma run_port_taken :
  has_dist w = true -> ipv4_port_taken PORT w = true ->
  python3 w =
  ({| cwd := ["dist"]; sockets := listening w;
      out := [(Stdout, "❌ Server error: [Errno 98] Address already in use")];
      replies := [] |},
   Exited 1).
Proof.
  intros Hd Hp. unfold python3, script, bind. rewrite (chdir_dist Hd).
  unfold try_except, try_body, with_TCPServer, bind, TCPServer.
  cbn [sockets]. unfold ipv4_port_taken in Hp. rewrite Hp.
  reflexivity.
Qed.

(** The run without a directory [dist]: the exception of [os.chdir] is
    outside the [try] statement and reaches the interpreter. *)
Lemma run_no_dist :
  has_dist w = false ->
  exists cls msg,
    os_chdir w "dist" (initial w) = (initial w, Raise (Exception cls msg)) /\
    python3 w =
    ({| cwd := []; sockets := listening w;
        out := [(Stderr, "Traceback (most recent call last):");
                traceback_line (Exception cls msg)];
        replies := [] |},
     Exited 1).
Proof.
  unfold has_dist, python3, script, bind, os_chdir. cbn [initial cwd app].
  destruct (Fs.lookup (files w) ["dist"]) as [[c m|es]|]; try discriminate;
    intros _; do 2 eexists; split; reflexivity.
Qed.

End ScriptFacts.

(* ===================================================================== *)
(** ** The properties *)
(* ===================================================================== *)

(** *** Paths and files *)


(** Cutting at the first ["?"] and at the first ["#"], in either order. *)
Lemma before_comm (a b : ascii) (s : string) :
  before a (before b s) = before b (before a s).
Proof.
  induction s as [|c s IH]; cbn; [reflexivity|].
  destruct (Ascii.eqb c b) eqn:Hb, (Ascii.eqb c a) eqn:Ha; cbn;
    rewrite ?Ha, ?Hb, ?IH; reflexivity.
Qed.






(** A directory named without its trailing slash is answered with 301. *)
Lemma directory_without_slash_is_redirected :
  resolves_to demo_files ["dist"] (path (demo_request "GET" "/assets")) = None /\
  status (reply demo_platform demo_files ["dist"] (demo_request "GET" "/assets"))
  = [301].
Proof. split; vm_compute; reflexivity. Qed.

(** An existing file is not sent again to a client whose copy is as recent:
    the answer is 304 without a body. *)
Lemma revalidation_is_answered_304 :
  resolves_to demo_files ["dist"] (path (demo_revalidation "/index.html"))
  = Some ("<h1>Birch Lounge</h1>", 1000) /\
  status (reply demo_platform demo_files ["dist"] (demo_revalidation "/index.html"))
  = [304] /\
  sent_body (reply demo_platform demo_files ["dist"] (demo_revalidation "/index.html"))
  = "".
Proof. repeat split; vm_compute; reflexivity. Qed.

(** A path with an escaped NUL makes [open] raise [ValueError], which
    [send_head] does not catch: the client is sent nothing, neither a 404
    nor a header, and the serving loop reports the exception on standard
    error. *)
Lemma nul_path_is_not_answered :
  resolves_to demo_files ["dist"] (path (demo_request "GET" "/%00")) = None /\
  reply demo_platform demo_files ["dist"] (demo_request "GET" "/%00") = [] /\
  log_lines demo_platform demo_files ["dist"] (demo_request "GET" "/%00")
  = error_report demo_platform (demo_request "GET" "/%00")
      (Exception "ValueError" "embedded null byte").
Proof. repeat split; vm_compute; reflexivity. Qed.



(** *** CORS headers on every reply *)



(** *** Log lines *)

(** What handling a request prints: when the handler raises, the report
    of the serving loop, on standard error; otherwise the access line,
    after the line of [send_error] when the reply is an error. *)
Lemma log_lines_cases (P : platform) (root : Fs.node) (dir : list string)
  (self : request) :
  (handler_raises P root dir self = true /\
   reply P root dir self = [] /\
   log_lines P root dir self
   = error_report P self (Exception "ValueError" "embedded null byte")) \/
  (handler_raises P root dir self = false /\
   exists code message,
     status_lines (sent_lines (reply P root dir self)) = [(code, message)] /\
     log_lines P root dir self =
     ((if 400 <=? code then [(Stdout, error_line code message)] else [])
      ++ [(Stdout, access_line self code)])%list).
Proof.
  run_handler; finish_reply;
    first [ left; repeat split; reflexivity
          | right; split; [reflexivity|]; do 2 eexists; rewrite ?append_empty_r;
            (split; [reflexivity|]); reflexivity ].
Qed.




(** C10.  [log_message] prints the same line whatever the handler and the
    state it is called in: the line is ["[SERVER] "] followed by
    [format % args], and nothing but the console changes.  When the
    formatting raises, both calls raise and print nothing. *)
Theorem log_message_depends_on_format_and_args_only
  (self1 self2 : request) (c1 c2 : conn) (format : string) (args : list pyval) :
  let line :=
    match percent format args with
    | Some message => [(Stdout, "[SERVER] " ++ message)]
    | None => []
    end in
  fst (log_message self1 format args c1) =
    {| http_0_9 := http_0_9 c1;
       headers_buffer := headers_buffer c1; wfile := wfile c1;
       close_connection := close_connection c1;
       stdio := (stdio c1 ++ line)%list |} /\
  fst (log_message self2 format args c2) =
    {| http_0_9 := http_0_9 c2;
       headers_buffer := headers_buffer c2; wfile := wfile c2;
       close_connection := close_connection c2;
       stdio := (stdio c2 ++ line)%list |} /\
  snd (log_message self1 format args c1) = snd (log_message self2 format args c2).
Proof.
  unfold log_message.
  destruct (percent format args) as [message|]; cbn.
  - repeat split; reflexivity.
  - rewrite !app_nil_r. destruct c1, c2. repeat split; reflexivity.
Qed.

(** The library's own [log_message], which the script replaces, does show
    the peer: two clients sending the same request line are logged
    differently, and on standard error. *)
Lemma library_log_message_shows_the_peer :
  stdio (fst (base_log_message demo_platform (demo_request "GET" "/") "%s"
                [PStr "hello"] (fresh [])))
  = [(Stderr, "127.0.0.1 - - [t=2000] hello")].
Proof. vm_compute. reflexivity. Qed.

(** *** Startup, shutdown and failures *)

(** C3.  The script first changes into [dist], below the directory it was
    launched from: when [dist] is a directory the process works in it.
    When there is no [dist], [os.chdir] raises [FileNotFoundError] before
    the [try] statement is entered; the interpreter prints the traceback
    on standard error and the process exits with status 1, having bound
    no socket and printed nothing else. *)
Theorem chdir_dist_or_exit_1 (w : world) :
  (has_dist w = true -> cwd (fst (python3 w)) = ["dist"]) /\
  (Fs.lookup (files w) ["dist"] = None ->
   python3 w =
   ({| cwd := []; sockets := listening w;
       out := [(Stderr, "Traceback (most recent call last):");
               (Stderr, "FileNotFoundError: [Errno 2] No such file or directory: 'dist'")];
       replies := [] |},
    Exited 1)).
Proof.
  split.
  - intros Hd. destruct (ipv4_port_taken PORT w) eqn:Hp.
    + rewrite (run_port_taken w Hd Hp). reflexivity.
    + rewrite (run_serving w Hd Hp). reflexivity.
  - intros Hnone. unfold python3, script, bind, os_chdir.
    cbn [initial cwd app]. rewrite Hnone. reflexivity.
Qed.

Lemma chdir_dist_or_exit_1_witness :
  cwd (fst (python3 (demo_world demo_files [] [] Interrupt))) = ["dist"] /\
  python3 (demo_world (Fs.Dir []) [] [] Interrupt) =
  ({| cwd := []; sockets := [];
      out := [(Stderr, "Traceback (most recent call last):");
              (Stderr, "FileNotFoundError: [Errno 2] No such file or directory: 'dist'")];
      replies := [] |},
   Exited 1).
Proof.
  split.
  - exact (proj1 (chdir_dist_or_exit_1 (demo_world demo_files [] [] Interrupt)) eq_refl).
  - exact (proj2 (chdir_dist_or_exit_1 (demo_world (Fs.Dir []) [] [] Interrupt)) eq_refl).
Defined.

(** C5.  When the interrupt arrives while the server serves, the script
    prints the shutdown message as its last line, after the banner and the
    log of the requests answered, and the process exits with status 0. *)
Theorem interrupt_exits_0 (w : world) :
  has_dist w = true -> port_taken PORT w = false -> stop w = Interrupt ->
  snd (python3 w) = Exited 0 /\
  out (fst (python3 w)) =
  (banner w
   ++ flat_map (log_lines (machine w) (files w) ["dist"]) (traffic w)
   ++ [(Stdout, (newline ++ "🛑 Server stopped")%string)])%list.
Proof.
  intros Hd Hp Hs.
  rewrite (run_serving w Hd (port_free_for_ipv4 w PORT Hp)), Hs.
  split; reflexivity.
Qed.

Lemma interrupt_exits_0_witness :
  snd (python3 (demo_world demo_files [] [demo_request "GET" "/"] Interrupt))
  = Exited 0 /\
  out (fst (python3 (demo_world demo_files [] [demo_request "GET" "/"] Interrupt)))
  = (banner (demo_world demo_files [] [demo_request "GET" "/"] Interrupt)
     ++ [(Stdout, access_line (demo_request "GET" "/") 200);
         (Stdout, (newline ++ "🛑 Server stopped")%string)])%list.
Proof.
  exact (interrupt_exits_0
           (demo_world demo_files [] [demo_request "GET" "/"] Interrupt)
           eq_refl eq_refl eq_refl).
Defined.

(** C6.  Whatever exception other than the interrupt startup or serving
    raises, the process exits with status 1 and the exception is printed:
    by the [except Exception] clause, as the last line of standard output,
    when it is raised inside the [try] statement (the bind, the serving
    loop); by the interpreter, as a traceback on standard error, when it
    is raised by [os.chdir], which stands before the [try] statement. *)
Theorem failure_exits_1 (w : world) :
  raised w <> KeyboardInterrupt ->
  snd (python3 w) = Exited 1 /\
  if has_dist w
  then last (out (fst (python3 w))) (Stdout, "") = server_error_line (raised w)
  else out (fst (python3 w)) =
       [(Stderr, "Traceback (most recent call last):"); traceback_line (raised w)].
Proof.
  intros Hne. destruct (has_dist w) eqn:Hd.
  - unfold raised in *. rewrite (chdir_dist w Hd) in *.
    unfold TCPServer in *. cbn [sockets] in *.
    destruct (existsb (collide ("", PORT)) (listening w)) eqn:Hp.
    + rewrite (run_port_taken w Hd Hp). split; reflexivity.
    + rewrite (run_serving w Hd Hp). cbn [fst snd out].
      destruct (stop w) as [|cls msg]; [contradiction Hne; reflexivity|].
      split; [reflexivity|].
      rewrite app_assoc. apply last_last.
  - destruct (run_no_dist w Hd) as [cls [msg [Hch Hrun]]].
    unfold raised. rewrite Hch, Hrun. split; reflexivity.
Qed.

Lemma failure_exits_1_witness :
  snd (python3 (demo_world demo_files [] [] (Failure "OSError" "[Errno 24] Too many open files")))
  = Exited 1 /\
  last (out (fst (python3 (demo_world demo_files [] []
                             (Failure "OSError" "[Errno 24] Too many open files")))))
       (Stdout, "")
  = (Stdout, "❌ Server error: [Errno 24] Too many open files").
Proof.
  apply (failure_exits_1
           (demo_world demo_files [] [] (Failure "OSError" "[Errno 24] Too many open files"))).
  vm_compute. discriminate.
Defined.




(** *** Methods the handler does not implement *)

(** C8.  A request whose method is neither GET nor HEAD (POST and OPTIONS
    among them, though the CORS header names them) is answered with the
    library's reply for an unsupported method: status 501 with the phrase
    [Unsupported method (<method>)] and the library's error page, the same
    status line, fields and body as the library's own class sends, with the
    three CORS fields added.  The handler returns normally: the serving
    loop goes on to the next request. *)
Theorem unsupported_method_gets_501 (P : platform) (root : Fs.node)
  (dir : list string) (self : request) :
  command self <> "GET" -> command self <> "HEAD" ->
  status_lines (sent_lines (reply P root dir self))
  = [(501, "Unsupported method (" ++ repr P (command self) ++ ")")] /\
  sent_body (reply P root dir self)
  = error_page P 501 ("Unsupported method (" ++ repr P (command self) ++ ")")
      "Server does not support this operation" /\
  cors_fields (reply P root dir self) = cors /\
  status_lines (sent_lines (reply P root dir self))
  = status_lines (sent_lines (library_reply P root dir self)) /\
  filter (fun f => negb (is_cors_field f)) (fields (sent_lines (reply P root dir self)))
  = fields (sent_lines (library_reply P root dir self)) /\
  sent_body (reply P root dir self) = sent_body (library_reply P root dir self) /\
  (forall (w : world) (p : proc), snd (process_request w self p) = Ret tt).
Proof.
  intros Hget Hhead.
  apply String.eqb_neq in Hget, Hhead.
  split; [|split; [|split]].
  - unfold_handler. rewrite Hget, Hhead.
    simpl; repeat (split_test; simpl); reflexivity.
  - unfold_handler. rewrite Hget, Hhead.
    simpl; repeat (split_test; simpl); simpl; rewrite ?append_empty_r; try reflexivity;
      try match goal with
          | H : _ = false |- _ => vm_compute in H; discriminate H
          end.
    match goal with
    | H : negb (String.eqb ?b "") = false |- _ =>
        apply negb_false_iff, String.eqb_eq in H; rewrite H
    end. reflexivity.
  - unfold_handler. rewrite Hget, Hhead. unfold cors_fields.
    simpl; repeat (split_test; simpl); reflexivity.
  - unfold library_reply. unfold_handler. rewrite Hget, Hhead.
    repeat split; try (simpl; repeat (split_test; simpl); reflexivity).
    intros w p. rewrite process_request_run. reflexivity.
Qed.

Lemma unsupported_method_gets_501_witness :
  status_lines (sent_lines (reply demo_platform demo_files ["dist"]
                              (demo_request "OPTIONS" "/index.html")))
  = [(501, "Unsupported method ('OPTIONS')")].
Proof.
  destruct (unsupported_method_gets_501 demo_platform demo_files ["dist"]
              (demo_request "OPTIONS" "/index.html")) as [H _].
  - vm_compute; discriminate.
  - vm_compute; discriminate.
  - exact H.
Defined.

(** *** The two [except] clauses *)

(** A line the handler prints is not the line of the error clause. *)
Lemma log_line_is_not_error_line (P : platform) (root : Fs.node)
  (dir : list string) (self : request) (e : exn) :
  ~ In (server_error_line e) (log_lines P root dir self).
Proof.
  destruct (log_lines_cases P root dir self)
    as [[_ [_ Hl]]|[_ [code [message [_ Hl]]]]]; rewrite Hl; intros Hin.
  - unfold error_report, server_error_line in Hin.
    repeat (destruct Hin as [Hin|Hin]; [discriminate Hin|]). destruct Hin.
  - apply in_app_or in Hin. destruct Hin as [Hin|[Hin|[]]].
    + destruct (400 <=? code); [destruct Hin as [Hin|[]]|destruct Hin].
      unfold server_error_line, error_line in Hin; cbn in Hin. discriminate Hin.
    + unfold server_error_line, access_line in Hin; cbn in Hin. discriminate Hin.
Qed.

(** C9.  The [SystemExit] that [sys.exit(0)] raises in the interrupt
    clause is not caught by the clause for [Exception] that follows:
    whatever body raises [KeyboardInterrupt], the [try] statement prints
    the shutdown message only and raises [SystemExit(0)]; the clause for
    [Exception] does not match a [SystemExit] even when it is the one
    asked.  An interrupted server therefore exits with status 0, and the
    line of the error clause is nowhere in its output. *)
Theorem interrupt_exit_is_not_caught (w : world) :
  (forall (body : M proc unit) (p p' : proc),
     body p = (p', Raise KeyboardInterrupt) ->
     try_except body [except_KeyboardInterrupt; except_Exception] p
     = (emit Stdout (newline ++ "🛑 Server stopped") p', Raise (SystemExit 0))) /\
  (forall (n : Z) (p : proc),
     dispatch [except_Exception] (SystemExit n) p = (p, Raise (SystemExit n))) /\
  (has_dist w = true -> port_taken PORT w = false -> stop w = Interrupt ->
   snd (python3 w) = Exited 0 /\
   snd (python3 w) <> Exited 1 /\
   forall e : exn, ~ In (server_error_line e) (out (fst (python3 w)))).
Proof.
  split; [|split].
  - intros body p p' Hbody. unfold try_except. rewrite Hbody. reflexivity.
  - intros n p. reflexivity.
  - intros Hd Hp Hs.
    rewrite (run_serving w Hd (port_free_for_ipv4 w PORT Hp)), Hs.
    cbn [fst snd out].
    split; [reflexivity|]. split; [discriminate|].
    intros e Hin. apply in_app_or in Hin. destruct Hin as [Hin|Hin].
    + unfold banner, server_error_line in Hin. cbn in Hin.
      destruct Hin as [Hin|[Hin|[Hin|[Hin|[]]]]]; discriminate Hin.
    + apply in_app_or in Hin. destruct Hin as [Hin|[Hin|[]]].
      * apply in_flat_map in Hin. destruct Hin as [self [_ Hin]].
        exact (log_line_is_not_error_line _ _ _ _ _ Hin).
      * unfold stopped_line, server_error_line in Hin. cbn in Hin. discriminate Hin.
Qed.

Lemma interrupt_exit_is_not_caught_witness :
  snd (python3 (demo_world demo_files [] [demo_request "GET" "/missing.txt"] Interrupt))
  = Exited 0.
Proof.
  exact (proj1 (proj2 (proj2 (interrupt_exit_is_not_caught
           (demo_world demo_files [] [demo_request "GET" "/missing.txt"] Interrupt)))
           eq_refl eq_refl eq_refl)).
Defined.
(* ===================================================================== *)
(** ** Further properties of the script *)
(* ===================================================================== *)

(** *** What the overriding handler changes *)

(** X1.  The overridden [end_headers] changes nothing of the library's
    reply but its header fields, to which it adds the three CORS fields,
    after all the others: for every request, the status line and the body
    are those the library's own class sends; when the library's class
    sends nothing, because it raised, so does the script's, and otherwise
    the fields are the library's, in their order, followed by the CORS
    fields.  To an HTTP/0.9 request, which gets no header, the script's
    class sends what the library's sends. *)
Theorem override_only_appends_cors (P : platform) (root : Fs.node)
  (dir : list string) (self : request) :
  status_lines (sent_lines (reply P root dir self))
  = status_lines (sent_lines (library_reply P root dir self)) /\
  sent_body (reply P root dir self) = sent_body (library_reply P root dir self) /\
  match library_reply P root dir self with
  | [] => reply P root dir self = []
  | _ :: _ =>
      fields (sent_lines (reply P root dir self))
      = (fields (sent_lines (library_reply P root dir self)) ++ cors)%list
  end /\
  reply_0_9 P root dir self = library_reply_0_9 P root dir self.
Proof.
  run_handler; finish_reply; repeat split; reflexivity.
Qed.


(** X3.  A HEAD request is answered with the header block of the GET
    request for the same target, CORS fields included, and without
    body. *)
Theorem head_is_get_without_body (P : platform) (root : Fs.node)
  (dir : list string) (self : request) :
  command self = "GET" ->
  sent_lines (reply P root dir (as_HEAD self)) = sent_lines (reply P root dir self) /\
  sent_body (reply P root dir (as_HEAD self)) = "".
Proof.
  intros Hget. unfold_handler. unfold path, as_HEAD; cbn [command target
    if_modified_since if_none_match clock client_address].
  rewrite Hget. cbn [String.eqb Ascii.eqb Bool.eqb negb andb].
  unfold not_modified;
    cbn [command target if_modified_since if_none_match clock].
  simpl; repeat (split_test; simpl); finish_reply; split; reflexivity.
Qed.

Lemma head_is_get_without_body_witness :
  sent_lines (reply demo_platform demo_files ["dist"]
                (as_HEAD (demo_request "GET" "/index.html")))
  = sent_lines (reply demo_platform demo_files ["dist"]
                  (demo_request "GET" "/index.html")) /\
  sent_body (reply demo_platform demo_files ["dist"]
               (as_HEAD (demo_request "GET" "/index.html"))) = "".
Proof.
  exact (head_is_get_without_body demo_platform demo_files ["dist"]
           (demo_request "GET" "/index.html") eq_refl).
Defined.

(** *** The process as a whole *)





(** X9.  When [dist] exists but is a regular file, [os.chdir] raises
    [NotADirectoryError]: as for a missing [dist], the interpreter prints
    the traceback and the process exits with status 1, without having
    bound a socket or printed the banner. *)
Theorem dist_is_a_file (w : world) (content : string) (mtime : Z) :
  Fs.lookup (files w) ["dist"] = Some (Fs.File content mtime) ->
  python3 w =
  ({| cwd := []; sockets := listening w;
      out := [(Stderr, "Traceback (most recent call last):");
              (Stderr, "NotADirectoryError: [Errno 20] Not a directory: 'dist'")];
      replies := [] |},
   Exited 1).
Proof.
  intros Hfile. unfold python3, script, bind, os_chdir.
  cbn [initial cwd app]. rewrite Hfile. reflexivity.
Qed.

Lemma dist_is_a_file_witness :
  python3 (demo_world demo_files_dist_is_file [] [demo_request "GET" "/"] Interrupt) =
  ({| cwd := []; sockets := [];
      out := [(Stderr, "Traceback (most recent call last):");
              (Stderr, "NotADirectoryError: [Errno 20] Not a directory: 'dist'")];
      replies := [] |},
   Exited 1).
Proof.
  exact (dist_is_a_file
           (demo_world demo_files_dist_is_file [] [demo_request "GET" "/"] Interrupt)
           "not a directory" 1000 eq_refl).
Defined.

(** *** Only [dist] is served *)

Lemma split_slash_not_nil (s : string) : split_slash s <> [].
Proof.
  induction s as [|c s IH]; cbn; [discriminate|].
  destruct (Ascii.eqb c "/"); [discriminate|].
  destruct (split_slash s); discriminate.
Qed.

(** The pieces [split("/")] gives contain no ["/"]. *)
Lemma split_slash_no_slash (s word : string) :
  In word (split_slash s) -> ~ In "/"%char (list_ascii_of_string word).
Proof.
  revert word; induction s as [|c s IH]; intros word; cbn.
  - intros [<-|[]]. cbn. tauto.
  - destruct (Ascii.eqb c "/") eqn:Hc.
    + intros [<-|Hin]; [cbn; tauto|]. apply IH, Hin.
    + destruct (split_slash s) as [|w ws] eqn:Hs.
      * intros [<-|[]]. cbn. intros [Heq|[]].
        subst c. discriminate Hc.
      * intros [<-|Hin].
        -- cbn. intros [Heq|Hin].
           ++ subst c. discriminate Hc.
           ++ exact (IH w (or_introl eq_refl) Hin).
        -- apply IH. right. exact Hin.
Qed.

(** X10.  Whatever the request target (with [..], doubled slashes, or
    either of them percent-encoded), the path the handler looks up is the
    served directory followed by plain names only: no component is empty,
    ["."] or [".."], and none contains a ["/"]. *)
Theorem translate_path_stays_below (dir : list string) (target : string) :
  exists words,
    fst (translate_path dir target) = (dir ++ words)%list /\
    Forall plain_name words.
Proof.
  unfold translate_path. cbn [fst]. eexists. split; [reflexivity|].
  apply Forall_forall. intros word Hin.
  apply filter_In in Hin. destruct Hin as [Hin Hdots].
  apply filter_In in Hin. destruct Hin as [Hin Hempty].
  apply negb_true_iff in Hdots, Hempty.
  apply orb_false_iff in Hdots. destruct Hdots as [Hdot Hdotdot].
  apply String.eqb_neq in Hdot, Hdotdot, Hempty.
  repeat split; try assumption.
  exact (split_slash_no_slash _ _ Hin).
Qed.

(** *** Queries and fragments *)

Lemma before_absent (c : ascii) (s : string) :
  ~ In c (list_ascii_of_string s) -> before c s = s.
Proof.
  induction s as [|d s IH]; cbn; [reflexivity|].
  intros Hnot. destruct (Ascii.eqb d c) eqn:Hd.
  - apply Ascii.eqb_eq in Hd. exfalso. apply Hnot. left. exact Hd.
  - rewrite IH; [reflexivity|]. intros Hin. apply Hnot. right. exact Hin.
Qed.

Lemma before_mark (c : ascii) (s rest : string) :
  ~ In c (list_ascii_of_string s) -> before c (s ++ String c rest) = s.
Proof.
  induction s as [|d s IH]; cbn.
  - rewrite Ascii.eqb_refl. reflexivity.
  - intros Hnot. destruct (Ascii.eqb d c) eqn:Hd.
    + apply Ascii.eqb_eq in Hd. exfalso. apply Hnot. left. exact Hd.
    + rewrite IH; [reflexivity|]. intros Hin. apply Hnot. right. exact Hin.
Qed.

(** X12.  A query or a fragment after the path does not change which file
    is served: a target followed by [?] or [#] and anything resolves to
    the file the target alone resolves to. *)
Theorem query_and_fragment_are_ignored (root : Fs.node) (dir : list string)
  (target rest : string) (mark : ascii) :
  mark = "?"%char \/ mark = "#"%char ->
  ~ In "?"%char (list_ascii_of_string target) ->
  ~ In "#"%char (list_ascii_of_string target) ->
  translate_path dir (target ++ String mark rest) = translate_path dir target /\
  resolves_to root dir (target ++ String mark rest) = resolves_to root dir target.
Proof.
  intros Hmark Hq Hf.
  assert (Hcut : before "#" (before "?" (target ++ String mark rest))
                 = before "#" (before "?" target)).
  { destruct Hmark as [-> | ->].
    - rewrite (before_mark "?" target rest Hq), (before_absent "?" target Hq).
      reflexivity.
    - rewrite (before_comm "#" "?" (target ++ String "#" rest)).
      rewrite (before_mark "#" target rest Hf).
      rewrite (before_comm "#" "?" target), (before_absent "#" target Hf).
      reflexivity. }
  assert (Htp : translate_path dir (target ++ String mark rest)
                = translate_path dir target).
  { unfold translate_path. rewrite Hcut. reflexivity. }
  split; [exact Htp|]. unfold resolves_to. rewrite Htp. reflexivity.
Qed.

Lemma query_and_fragment_are_ignored_witness :
  resolves_to demo_files ["dist"] ("/assets/app.js" ++ String "?" "v=42")
  = resolves_to demo_files ["dist"] "/assets/app.js".
Proof.
  refine (proj2 (query_and_fragment_are_ignored demo_files ["dist"]
                   "/assets/app.js" "v=42" "?" (or_introl eq_refl) _ _)).
  - cbn. intros H. repeat (destruct H as [H|H]; [discriminate H|]). exact H.
  - cbn. intros H. repeat (destruct H as [H|H]; [discriminate H|]). exact H.
Defined.
